(** * kvm_net_stress: the stall-detection and recovery loop

    A shallow embedding of [kvm_net_stress.py] (Run a network stress test on
    a KVM guest).  The script starts a batch of wget workers through xargs,
    polls the ping log and the dispatcher twice a second, declares a hang
    when the log stops growing for more than [TIMEOUT] seconds or its last
    line is not an echo reply, kills the dispatcher, power-cycles the guest
    with virsh and waits for the web server before the next batch.

    The program talks to the outside through the clock, [time.sleep],
    [subprocess] and a handful of scratch files.  Every such call appends an
    [event] to the trace of the [world]; what the outside answers is given
    by a script, one reply per call, so that the functions below are total
    and can be evaluated on a concrete run.  A loop whose script runs out is
    [Blocked]: the program is still inside that loop. *)

From Stdlib Require Import Ascii String QArith Lqa.
From stdpp Require Import base list strings gmap pretty.

Set Warnings "-clear-no-such-hyp".

Local Open Scope string_scope.
Local Open Scope list_scope.
Local Open Scope Z_scope.

(** ** The Python string methods the script relies on *)

Module Py.

(** [str.isspace] on one byte: space, \t, \n, \v, \f and \r. *)
Definition is_space (c : ascii) : bool :=
  let n := nat_of_ascii c in
  (n =? 32)%nat || ((9 <=? n)%nat && (n <=? 13)%nat).

Definition is_newline (c : ascii) : bool :=
  let n := nat_of_ascii c in (n =? 10)%nat || (n =? 13)%nat.

Fixpoint lstrip (s : string) : string :=
  match s with
  | String c s' => if is_space c then lstrip s' else s
  | EmptyString => EmptyString
  end.

(** A white character is dropped when nothing but white follows. *)
Fixpoint rstrip (s : string) : string :=
  match s with
  | String c s' =>
      let r := rstrip s' in
      if is_space c && String.eqb r "" then "" else String c r
  | EmptyString => EmptyString
  end.

(** [s.strip()] *)
Definition strip (s : string) : string := rstrip (lstrip s).

(** Puts [c] in front of the first element of [ls], the field or line
    being read. *)
Definition push_char (c : ascii) (ls : list string) : list string :=
  match ls with
  | [] => [String c ""]
  | l :: ls' => String c l :: ls'
  end.

(** [s.splitlines()]: a line ends at \n, \r or \r\n; the line ends are
    dropped and a line end that closes the text opens no new line. *)
Fixpoint splitlines (s : string) : list string :=
  match s with
  | EmptyString => []
  | String "013"%char (String "010"%char s') => "" :: splitlines s'
  | String c s' =>
      if is_newline c then "" :: splitlines s'
      else push_char c (splitlines s')
  end.

(** [s.split(None, n)]: fields separated by runs of white space, at most
    [n] splits; once they are used up the rest of the text, from its first
    black character on, is the last field.  [fields] runs between two
    fields, [in_field] inside one. *)
Fixpoint fields (n : nat) (s : string) : list string :=
  match s with
  | EmptyString => []
  | String c s' =>
      if is_space c then fields n s'
      else match n with
           | O => [s]
           | S n' => push_char c (in_field n' s')
           end
  end
with in_field (n : nat) (s : string) : list string :=
  match s with
  | EmptyString => [""]
  | String c s' =>
      if is_space c then "" :: fields n s'
      else push_char c (in_field n s')
  end.

(** [s.split()]: every field; a text has fewer fields than characters. *)
Definition words (s : string) : list string := fields (String.length s) s.

(** [s.split(sep)] for a separator of one character: never empty. *)
Fixpoint split (sep : ascii) (s : string) : list string :=
  match s with
  | EmptyString => [""]
  | String c s' =>
      if Ascii.eqb c sep then "" :: split sep s'
      else push_char c (split sep s')
  end.

(** [needle in hay] *)
Fixpoint contains (needle hay : string) : bool :=
  String.prefix needle hay
  || match hay with
     | EmptyString => false
     | String _ hay' => contains needle hay'
     end.

(** [s.startswith(p)] *)
Definition startswith (p s : string) : bool := String.prefix p s.

Definition digit (c : ascii) : option Z :=
  let n := nat_of_ascii c in
  if (48 <=? n)%nat && (n <=? 57)%nat then Some (Z.of_nat n - 48) else None.

Fixpoint digits (acc : Z) (s : string) : option Z :=
  match s with
  | EmptyString => Some acc
  | String c s' => d ← digit c; digits (10 * acc + d) s'
  end.

(** The digits of a number, at least one. *)
Definition number (s : string) : option Z :=
  match s with
  | EmptyString => None
  | _ => digits 0 s
  end.

(** [int(s)] in Python 2: white space around, an optional sign, which white
    space may follow, then decimal digits, at least one; [None] stands for
    ValueError. *)
Definition int (s : string) : option Z :=
  match strip s with
  | String "-"%char r => Z.opp <$> number (lstrip r)
  | String "+"%char r => number (lstrip r)
  | r => number r
  end.

End Py.


(** ** Outcomes, events and the world *)

(** The exceptions that can leave a function of the script. *)
Inductive exn : Type :=
| SystemExit (msg : string)                 (* sys.exit(msg) *)
| ValueError                                (* int() of a text that is no number,
                                               a row that does not unpack *)
| CalledProcessError (returncode : Z) (cmd : string)
                                            (* check_output: non-zero status *)
| OSError (path : string)                   (* removing a file that is gone *)
| KeyboardInterrupt.                        (* the operator's interrupt *)

(** Where the control thread is when the script of a run ends. *)
Inductive phase : Type :=
| Polling              (* stress: the poll loop *)
| ShuttingDown         (* restart_guest: waiting for 'shut off' *)
| WaitingForService    (* restart_guest: waiting for the web server *)
| BetweenBatches.      (* main: about to start the next batch *)

Inductive result (A : Type) : Type :=
| Ret (a : A)
| Raise (e : exn)
| Blocked (ph : phase).
Arguments Ret {A} a.
Arguments Raise {A} e.
Arguments Blocked {A} ph.

(** What the outside answers to a call that waits for it. *)
Inductive reply (A : Type) : Type :=
| Got (a : A)
| Interrupt.           (* KeyboardInterrupt is raised in the call *)
Arguments Got {A} a.
Arguments Interrupt {A}.

(** The value of [ping_failed] (line 125),
    [PING_FILE.lines() and not PING_FILE.lines()[-1].startswith(...)]:
    the empty list while the log has no line, a boolean afterwards. *)
Inductive ping_flag : Type :=
| NoSample
| Sample (failed : bool).

Definition truthy (pf : ping_flag) : bool :=
  match pf with
  | NoSample => false
  | Sample failed => failed
  end.

(** The dict [stats] that main creates and stress updates in place. *)
Record Stats : Type := mkStats {
  s_seq : Z;
  s_down : Z;
  s_up : Z;
  s_last_hang : Q;
  s_start : Q;
  s_hanged : Z;
  s_completed : Z
}.

(** The arguments of a log message, next to its format string.  The byte
    counts of the status line go through sizeof_fmt and the durations
    through datetime.timedelta; the trace keeps their arguments. *)
Inductive arg : Type :=
| AStr (s : string)
| AInt (n : Z)
| ALines (ls : list string)
| AFlag (pf : ping_flag)
| ASize (bytes : Z)          (* sizeof_fmt(bytes) *)
| ASeconds (t : Z).          (* datetime.timedelta(seconds=t) *)

Inductive event : Type :=
| Info (fmt : string) (args : list arg)     (* logging.info *)
| Error (fmt : string) (args : list arg)    (* logging.error *)
| Sleep (seconds : Q)                       (* time.sleep *)
| Shell (cmd : string)                      (* subprocess.check_output(cmd, shell=True) *)
| Popen (argv : list string)                (* subprocess.Popen(argv) *)
| PopenShell (cmd : string)                 (* subprocess.Popen(cmd, shell=True) *)
| WriteText (path text : string)            (* path.write_text(text) *)
| Remove (path : string)                    (* path.remove() *)
| KillPing.                                 (* ping.kill() *)

Record world : Type := mkWorld {
  stats : Stats;
  files : gset string;     (* the scratch files on disk *)
  ping_alive : bool;       (* the ping started by main has not been killed *)
  trace : list event       (* oldest first *)
}.

(** ** The monad of the control thread: state, exceptions, blocking *)

Definition M (A : Type) : Type := world → result A * world.

#[export] Instance M_ret : MRet M := λ A a w, (Ret a, w).

#[export] Instance M_bind : MBind M := λ A B f m w,
  match m w with
  | (Ret a, w') => f a w'
  | (Raise e, w') => (Raise e, w')
  | (Blocked ph, w') => (Blocked ph, w')
  end.

Definition raise {A} (e : exn) : M A := λ w, (Raise e, w).

Definition blocked {A} (ph : phase) : M A := λ w, (Blocked ph, w).

Definition emit (e : event) : M unit := λ w,
  (Ret (), mkWorld (stats w) (files w) (ping_alive w) (trace w ++ [e])).

Definition get_stats : M Stats := λ w, (Ret (stats w), w).

Definition set_stats (s : Stats) : M unit := λ w,
  (Ret (), mkWorld s (files w) (ping_alive w) (trace w)).

Definition info (fmt : string) (args : list arg) : M unit := emit (Info fmt args).
Definition error (fmt : string) (args : list arg) : M unit := emit (Error fmt args).
Definition sleep (seconds : Q) : M unit := emit (Sleep seconds).

(** [try: body finally: handler].  The handler runs when the body returns
    or raises; when the handler raises, its exception replaces the body's. *)
Definition try_finally {A} (body : M A) (handler : M unit) : M A := λ w,
  match body w with
  | (Blocked ph, w') => (Blocked ph, w')
  | (r, w') =>
      match handler w' with
      | (Ret _, w'') => (r, w'')
      | (Raise e, w'') => (Raise e, w'')
      | (Blocked ph, w'') => (Blocked ph, w'')
      end
  end.

(** [subprocess.check_output(cmd, shell=True)]: the standard output of the
    command, CalledProcessError when its exit status is not zero. *)
Definition check_output (cmd : string) (r : reply (Z * string)) : M string :=
  emit (Shell cmd);;
  match r with
  | Got (returncode, out) =>
      if returncode =? 0 then mret out
      else raise (CalledProcessError returncode cmd)
  | Interrupt => raise KeyboardInterrupt
  end.

(** [get_temp(name)]: tempfile creates the file and hands back its path,
    which the outside chooses. *)
Definition get_temp (path : string) : M string := λ w,
  (Ret path, mkWorld (stats w) ({[path]} ∪ files w) (ping_alive w) (trace w)).

(** [path.write_text(text)] creates the file when it is missing. *)
Definition write_text (path text : string) : M unit := λ w,
  (Ret (), mkWorld (stats w) ({[path]} ∪ files w) (ping_alive w)
             (trace w ++ [WriteText path text])).

(** [path.remove()]: os.remove, OSError when there is no such file. *)
Definition remove (path : string) : M unit := λ w,
  if decide (path ∈ files w)
  then (Ret (), mkWorld (stats w) (files w ∖ {[path]}) (ping_alive w)
                  (trace w ++ [Remove path]))
  else (Raise (OSError path), w).

(** [ping.kill()] *)
Definition kill_ping : M unit := λ w,
  (Ret (), mkWorld (stats w) (files w) false (trace w ++ [KillPing])).

(** ** Constants of the script *)

Definition LOG_DELAY : Q := 1 # 2.
Definition TIMEOUT : Q := 3.

(** The text wget prints when it has written the whole answer. *)
Definition SAVED : string := "`/dev/null' saved".

(** ** kvm_state (lines 69-76) *)

(** [[state for id, name, state in lines if name == guest]]: each row is
    unpacked into three names, which fails with ValueError (here [None])
    on a row of another length, whatever the guest. *)
Fixpoint states_of (guest : string) (rows : list (list string)) : option (list string) :=
  match rows with
  | [] => Some []
  | [_; name; state] :: rows' =>
      rest ← states_of guest rows';
      Some (if String.eqb name guest then state :: rest else rest)
  | _ :: _ => None
  end.

(** The rows of the listing: what is left of the output of
    [virsh list --all] without its two header lines, split into at most
    three fields. *)
Definition listing_rows (out : string) : list (list string) :=
  Py.fields 2 <$> drop 2 (Py.splitlines (Py.strip out)).

Definition kvm_state (guest : string) (listing : reply (Z * string)) : M string :=
  out ← check_output "virsh list --all" listing;
  match states_of guest (listing_rows out) with
  | None => raise ValueError
  | Some (state :: _) => mret state
  | Some [] => mret "COULD NOT DETECT STATE"
  end.

(** ** restart_guest (lines 79-99) *)

(** [os.path.dirname], which path.py's [parent] calls: the text up to the
    last slash, without the slashes that end it unless it is made of
    slashes only. *)
Fixpoint upto_last_slash (s : string) : string :=
  match s with
  | EmptyString => EmptyString
  | String c s' =>
      let h := upto_last_slash s' in
      if String.eqb h "" then (if Ascii.eqb c "/" then "/" else "") else String c h
  end.

Fixpoint rstrip_slash (s : string) : string :=
  match s with
  | EmptyString => EmptyString
  | String c s' =>
      let r := rstrip_slash s' in
      if Ascii.eqb c "/" && String.eqb r "" then "" else String c r
  end.

Definition dirname (p : string) : string :=
  let head := upto_last_slash p in
  if String.eqb (rstrip_slash head) "" then head else rstrip_slash head.

(** [p = subprocess.Popen(argv, stdout=PIPE, stderr=PIPE)] followed by
    [out, err = p.communicate()]: the reply is [(p.returncode, err)]. *)
Definition popen_communicate (argv : list string) (r : reply (Z * string)) : M (Z * string) :=
  emit (Popen argv);;
  match r with
  | Got x => mret x
  | Interrupt => raise KeyboardInterrupt
  end.

(** What the outside answers during one call of restart_guest: the two
    virsh commands, one listing per turn of the first loop and one wget
    attempt per turn of the second. *)
Record restart_script : Type := mkRestart {
  shutdown_reply : reply (Z * string);
  listings : list (reply (Z * string));
  start_reply : reply (Z * string);
  probes : list (reply (Z * string))
}.

(** The first [while True] (lines 82-87). *)
Fixpoint wait_for_shutdown (guest : string) (ls : list (reply (Z * string))) : M unit :=
  match ls with
  | [] => blocked ShuttingDown
  | listing :: ls' =>
      state ← kvm_state guest listing;
      if String.eqb state "shut off" then mret ()
      else
        info "waiting for guest shutdown. current state '%s'" [AStr state];;
        sleep (1 # 2);;
        wait_for_shutdown guest ls'
  end.

(** Line 93: the command of a readiness probe; [Path(url).parent] is the
    url without its last component. *)
Definition probe_cmd (url : string) : list string :=
  ["/usr/bin/wget"; "-O"; "/dev/null"; "--timeout=1"; dirname url].

(** The second [while True] (lines 91-99). *)
Fixpoint wait_for_webserver (url : string) (ps : list (reply (Z * string))) : M unit :=
  info "waiting for webserver..." [];;
  match ps with
  | [] => blocked WaitingForService
  | attempt :: ps' =>
      '(returncode, err) ← popen_communicate (probe_cmd url) attempt;
      if (returncode =? 0) && Py.contains SAVED err then mret ()
      else
        info "wget failed returncode: %s output: %s " [AInt returncode; AStr err];;
        sleep 1;;
        wait_for_webserver url ps'
  end.

Definition restart_guest (guest url : string) (k : restart_script) : M unit :=
  info "shutdown guest..." [];;
  check_output ("virsh shutdown " +:+ guest) (shutdown_reply k);;
  wait_for_shutdown guest (listings k);;
  sleep 1;;
  info "starting guest..." [];;
  check_output ("virsh start " +:+ guest) (start_reply k);;
  wait_for_webserver url (probes k).

(** ** stress (lines 102-144) and main (lines 147-170) *)

(** What one turn of the poll loop sees.  Either [p.poll()] gives the exit
    status of xargs, and the turn reads the text of every file of
    [wget_files] and the size of POST_FILE; or it gives None, and the turn
    reads the size and the lines of PING_FILE and the clock.  The calls of
    time.time() within one turn are taken to give the same reading. *)
Inductive poll_obs : Type :=
| Exited (returncode : Z) (texts : list string) (post_size : Z)
| Running (size : Z) (lines : list string) (now : Q).

(** What the outside answers during one call of stress. *)
Record batch_script : Type := mkBatch {
  t0 : Q;                              (* time.time() of line 104 *)
  pid : Z;                             (* p.pid of the xargs started at line 109 *)
  polls : list (reply poll_obs);       (* one per turn of the poll loop *)
  kill_reply : reply (Z * string);     (* the kill command of line 131 *)
  recovery : restart_script
}.

(** [x > y] on clock readings. *)
Definition Qgtb (x y : Q) : bool :=
  match (y ?= x)%Q with
  | Lt => true
  | _ => false
  end.

(** [int(x)] on a number: the fraction is cut off. *)
Definition trunc (x : Q) : Z := Z.quot (Qnum x) (Zpos (Qden x)).

(** Line 125. *)
Definition ping_failed (target : string) (lines : list string) : ping_flag :=
  match last lines with
  | None => NoSample
  | Some l => Sample (negb (Py.startswith ("64 bytes from " +:+ target) l))
  end.

(** The condition of line 126. *)
Definition hang (size last_size : Z) (now last_change : Q) (pf : ping_flag) : bool :=
  ((size =? last_size) && Qgtb (now - last_change) TIMEOUT) || truthy pf.

(** Lines 112-113: the last line of the text of a wget output file, the
    empty text when it has none. *)
Definition last_line (text : string) : string :=
  default "" (last (Py.splitlines (Py.strip text))).

(** Line 116: [int(i.split('/')[-1].split(']')[0])]. *)
Definition saved_bytes (line : string) : option Z :=
  Py.int (default "" (head (Py.split "]" (default "" (last (Py.split "/" line)))))).

Definition sum (l : list Z) : Z := foldr Z.add 0 l.

(** Lines 112-123: xargs has exited with [returncode]. *)
Definition stress_exit (returncode : Z) (texts : list string)
    (post_size proc_count : Z) : M unit :=
  let last_lines := last_line <$> texts in
  let all_saved := forallb (Py.contains SAVED) last_lines in
  if (returncode =? 0) && all_saved then
    s ← get_stats;
    match mapM saved_bytes last_lines with
    | None => raise ValueError
    | Some counts =>
        set_stats (mkStats (s_seq s) (s_down s + sum counts)
                     (s_up s + post_size * proc_count) (s_last_hang s)
                     (s_start s) (s_hanged s) (s_completed s + 1))
    end
  else
    error "WGET EXIT returncode: %s last_lines: %s" [AInt returncode; ALines last_lines];;
    raise (SystemExit "this should never happen").

(** Lines 137-143: the status line. *)
Definition status_line (s : Stats) (now : Q) (last_size : Z) : event :=
  Info "#%s hanged:%s ok:%s total:%s last_hang:%s down:%s up: %s log:%s"
    [AInt (s_seq s); AInt (s_hanged s); AInt (s_completed s);
     ASeconds (trunc (now - s_start s)); ASeconds (trunc (now - s_last_hang s));
     ASize (s_down s); ASize (s_up s); AInt last_size].

Definition log_status (now : Q) (last_size : Z) : M unit :=
  s ← get_stats;
  emit (status_line s now last_size).

Section Script.

(** The three scratch files made when the module is loaded. *)
Variables POST_FILE ARG_FILE PING_FILE : string.

(** Lines 127-133: the hang is recorded, xargs is killed and the guest
    restarted. *)
Definition stress_hang (guest url : string) (k : batch_script)
    (now : Q) (pf : ping_flag) : M unit :=
  s ← get_stats;
  set_stats (mkStats (s_seq s) (s_down s) (s_up s) now
               (s_start s) (s_hanged s + 1) (s_completed s));;
  error "#%s NETWORK HANG ping_failed: %s" [AInt (s_seq s); AFlag pf];;
  info "killing wget processes ..." [];;
  check_output ("kill -9 " +:+ pretty (pid k)) (kill_reply k);;
  restart_guest guest url (recovery k).

(** The [while True] of lines 110-144, one reply per turn. *)
Fixpoint stress_loop (guest target url : string) (proc_count : Z)
    (k : batch_script) (ps : list (reply poll_obs))
    (last_change : Q) (last_size : Z) : M unit :=
  match ps with
  | [] => blocked Polling
  | Interrupt :: _ => raise KeyboardInterrupt
  | Got (Exited returncode texts post_size) :: _ =>
      stress_exit returncode texts post_size proc_count
  | Got (Running size lines now) :: ps' =>
      let pf := ping_failed target lines in
      if hang size last_size now last_change pf then
        stress_hang guest url k now pf
      else
        let '(last_change', last_size') :=
          if negb (size =? last_size) then (now, size)
          else (last_change, last_size) in
        log_status now last_size';;
        sleep LOG_DELAY;;
        stress_loop guest target url proc_count k ps' last_change' last_size'
  end.

(** Line 103: the text written to ARG_FILE. *)
Definition arg_text (wget_files : list string) : string :=
  String.concat " " ((λ i, "--output-file=" +:+ i) <$> wget_files).

(** Lines 106-108: the command line of xargs. *)
Definition xargs_cmd (url : string) (rate : option string) (proc_count : Z) : string :=
  let rate_arg :=
    match rate with
    | Some r => if String.eqb r "" then "" else "--limit-rate=" +:+ r
    | None => ""
    end in
  let wget := "/usr/bin/wget " +:+ url +:+ " -O /dev/null " +:+ rate_arg
              +:+ " --post-file=" +:+ POST_FILE in
  "/usr/bin/xargs --arg-file=" +:+ ARG_FILE +:+ " -n 1 -P "
    +:+ pretty proc_count +:+ " " +:+ wget.

Definition stress (guest target url : string) (rate : option string)
    (wget_files : list string) (proc_count : Z) (k : batch_script) : M unit :=
  write_text ARG_FILE (arg_text wget_files);;
  let last_change := t0 k in
  let last_size := 0 in
  emit (Popen (Py.words (xargs_cmd url rate proc_count)));;
  stress_loop guest target url proc_count k (polls k) last_change last_size.

(** What the outside answers during the session. *)
Record session_script : Type := mkSession {
  t_last_hang : Q;                     (* the two time.time() of line 158 *)
  t_start : Q;
  truncate_reply : reply (Z * string);
  temp_name : nat → string;            (* the path of the i-th wget output file *)
  batches : list batch_script          (* one per call of stress *)
}.

(** [for seq in itertools.count(1)] (lines 164-166). *)
Fixpoint main_loop (guest target url : string) (rate : option string)
    (wget_files : list string) (proc_count : Z)
    (seq : Z) (bs : list batch_script) : M unit :=
  match bs with
  | [] => blocked BetweenBatches
  | k :: bs' =>
      s ← get_stats;
      set_stats (mkStats seq (s_down s) (s_up s) (s_last_hang s)
                   (s_start s) (s_hanged s) (s_completed s));;
      stress guest target url rate wget_files proc_count k;;
      main_loop guest target url rate wget_files proc_count (seq + 1) bs'
  end.

Fixpoint remove_all (paths : list string) : M unit :=
  match paths with
  | [] => mret ()
  | path :: paths' => remove path;; remove_all paths'
  end.

(** The [finally] of lines 167-170. *)
Definition cleanup (wget_files : list string) : M unit :=
  remove_all ([POST_FILE; ARG_FILE; PING_FILE] ++ wget_files);;
  kill_ping.

(** [subprocess.Popen('ping ... > PING_FILE', shell=True)] *)
Definition popen_ping (target : string) : M unit := λ w,
  (Ret (), mkWorld (stats w) ({[PING_FILE]} ∪ files w) true
             (trace w ++ [PopenShell ("ping -s 56 " +:+ target +:+ " > " +:+ PING_FILE)])).

(** main once the arguments are parsed: [target] is
    [urlparse.urlparse(args.url).netloc]. *)
Definition main (url guest : string) (rate : option string) (post_size : string)
    (proc_count : Z) (target : string) (k : session_script) : M unit :=
  info "STARTING STRESS TEST" [];;
  set_stats (mkStats 0 0 0 (t_last_hang k) (t_start k) 0 0);;
  check_output ("truncate -s " +:+ post_size +:+ " " +:+ POST_FILE) (truncate_reply k);;
  popen_ping target;;
  wget_files ← mapM get_temp (temp_name k <$> seq 0 (Z.to_nat proc_count));
  try_finally
    (main_loop guest target url rate wget_files proc_count 1 (batches k))
    (cleanup wget_files).

End Script.

(** ** Reading a run *)

(** The world after [evs] have been appended to its trace. *)
Definition logged (w : world) (evs : list event) : world :=
  mkWorld (stats w) (files w) (ping_alive w) (trace w ++ evs).

(** A world in which nothing has happened yet. *)
Definition idle : world := mkWorld (mkStats 0 0 0 0 0 0 0) ∅ false [].

(** The value kvm_state hands back; it does not depend on the world. *)
Definition queryState (guest : string) (listing : reply (Z * string)) : result string :=
  fst (kvm_state guest listing idle).

(** The hang line of line 129 shows one thing about the hang, the value of
    [ping_failed]: a true flag reports the failed probe, any other value
    leaves the stalled log as the only way into the branch. *)
Inductive reason : Type :=
| no_progress
| probe_failure.

Definition reported_reason (pf : ping_flag) : reason :=
  if truthy pf then probe_failure else no_progress.

(** The line of the log that a hang writes first. *)
Definition hang_line (seq : Z) (pf : ping_flag) : event :=
  Error "#%s NETWORK HANG ping_failed: %s" [AInt seq; AFlag pf].

(** *** Poll sequences

    A sample is what a poll reads while xargs runs: the size of the ping
    log, its lines and the clock. *)
Definition sample : Type := Z * list string * Q.

Definition size_of (r : sample) : Z := r.1.1.
Definition lines_of (r : sample) : list string := r.1.2.
Definition time_of (r : sample) : Q := r.2.

Definition running (r : sample) : reply poll_obs :=
  Got (Running (size_of r) (lines_of r) (time_of r)).

(** The [j]-th sample shows a log larger than the poll before it did; the
    first sample is compared with [last_size]. *)
Definition grows_at (last_size : Z) (rs : list sample) (j : nat) : Prop :=
  ∃ before r,
    (last_size :: (size_of <$> rs)) !! j = Some before
    ∧ rs !! j = Some r
    ∧ before < size_of r.

(** Every poll lies at most TIMEOUT seconds after [start] or after a poll,
    itself included, that saw the log grow. *)
Definition progress_every_timeout (start : Q) (last_size : Z) (rs : list sample) : Prop :=
  ∀ i r, rs !! i = Some r →
    (time_of r - start <= TIMEOUT)%Q
    ∨ ∃ j rj, (j ≤ i)%nat ∧ grows_at last_size rs j
              ∧ rs !! j = Some rj ∧ (time_of r - time_of rj <= TIMEOUT)%Q.

(** The clock does not run backwards. *)
Definition clock_monotone (start : Q) (rs : list sample) : Prop :=
  (∀ i r, rs !! i = Some r → (start <= time_of r)%Q)
  ∧ (∀ i j ri rj, (i ≤ j)%nat → rs !! i = Some ri → rs !! j = Some rj →
       (time_of ri <= time_of rj)%Q).

(** The last line of the log is an echo reply in every poll. *)
Definition probe_succeeds (target : string) (rs : list sample) : Prop :=
  ∀ i r, rs !! i = Some r → ping_failed target (lines_of r) = Sample false.

(** What a run of polls that all go on writes: a status line and a sleep
    for each. *)
Definition watch_trace (s : Stats) (rs : list sample) : list event :=
  rs ≫= λ r, [status_line s (time_of r) (size_of r); Sleep LOG_DELAY].

(** *** Recovery

    What a turn of the first loop of restart_guest writes when the guest is
    in [state], not yet 'shut off'. *)
Definition shutdown_retry (state : string) : list event :=
  [Shell "virsh list --all";
   Info "waiting for guest shutdown. current state '%s'" [AStr state];
   Sleep (1 # 2)].

(** What a turn of the second loop writes when the attempt is not good. *)
Definition probe_retry (url : string) (attempt : Z * string) : list event :=
  [Info "waiting for webserver..." [];
   Popen (probe_cmd url);
   Info "wget failed returncode: %s output: %s " [AInt attempt.1; AStr attempt.2];
   Sleep 1].

(** The condition of line 96 on an attempt [(returncode, err)]. *)
Definition saved (attempt : Z * string) : bool :=
  (attempt.1 =? 0) && Py.contains SAVED attempt.2.

(** The shutdown command for [guest] among the events. *)
Definition is_shutdown (guest : string) (e : event) : bool :=
  match e with
  | Shell cmd => String.eqb cmd ("virsh shutdown " +:+ guest)
  | _ => false
  end.

(** [m] removes no scratch file and only appends to the trace, and what it
    appends satisfies [P]. *)
Definition appends (P : event → Prop) {A} (m : M A) : Prop :=
  ∀ w, files w ⊆ files (m w).2
       ∧ ∃ evs, trace (m w).2 = trace w ++ evs ∧ Forall P evs.

(** [m] leaves the stats as they are. *)
Definition keeps_stats {A} (m : M A) : Prop :=
  ∀ w, stats (m w).2 = stats w.

(** From [w] to [w'] the poll at [now] has been counted and reported as a
    hang: the hang counter is one higher, the last hang is dated [now], and
    the first thing written is the hang line, with the flag [pf]. *)
Definition hung_with (pf : ping_flag) (now : Q) (w w' : world) : Prop :=
  s_hanged (stats w') = s_hanged (stats w) + 1
  ∧ s_last_hang (stats w') = now
  ∧ ∃ evs, trace w' = trace w ++ hang_line (s_seq (stats w)) pf :: evs.

(** ** Sample answers of the outside *)

Module Sample.

Definition guest : string := "myguest".
Definition target : string := "myguest.local".
Definition url : string := "http://myguest.local/data.txt".

(** Lines of the ping log. *)
Definition echo_reply : string :=
  "64 bytes from myguest.local: icmp_seq=1 ttl=64 time=0.3 ms".
Definition unreachable : string :=
  "From 192.168.122.1 icmp_seq=7 Destination Host Unreachable".

(** Outputs of [virsh list --all]. *)
Definition listing (rows : string) : string :=
  " Id    Name                           State
" +:+ string_of_list_ascii (replicate 52 "-"%char) +:+ "
" +:+ rows.

Definition listing_running : string :=
  listing " 1     myguest                        running

".
Definition listing_off : string :=
  listing " -     myguest                        shut off

".
Definition listing_others : string :=
  listing " 3     builder                        running
 -     mirror                         shut off

".

(** Last lines of a wget output file: with the length of the answer known,
    and without it (the server sent no Content-Length). *)
Definition saved_line : string :=
  "2013-05-01 12:00:00 (1.21 MB/s) - `/dev/null' saved [104857600/104857600]".
Definition saved_line_no_total : string :=
  "2013-05-01 12:00:00 (1.21 MB/s) - `/dev/null' saved [1234]".

Definition ok : reply (Z * string) := Got (0, "").

(** A recovery in which the guest is seen running three times, then shut
    off, and the web server answers at the second attempt. *)
Definition recovery : restart_script :=
  mkRestart ok
    [Got (0, listing_running); Got (0, listing_running); Got (0, listing_running);
     Got (0, listing_off)]
    ok
    [Got (4, "Connecting to myguest.local... failed: Connection timed out.");
     Got (0, saved_line)].

(** A batch killed at its first poll: the last line of the ping log is not
    an echo reply. *)
Definition hung_batch : batch_script :=
  mkBatch 10 4242 [Got (Running 640 [echo_reply; unreachable] (21 # 2))] ok recovery.

(** A batch of two workers that ends well. *)
Definition good_batch : batch_script :=
  mkBatch 0 4100
    [Got (Running 320 [echo_reply] (1 # 2));
     Got (Exited 0 [saved_line; saved_line] 104857600)]
    ok recovery.

(** A poll sequence with the log growing often enough. *)
Definition steady : list sample :=
  [(100, [echo_reply], 1%Q); (100, [echo_reply], 2%Q); (200, [echo_reply], 7 # 2);
   (200, [echo_reply], 5%Q); (300, [echo_reply], 6%Q)].

Definition steady_batch : batch_script :=
  mkBatch 0 4300
    ((running <$> steady) ++ [Got (Exited 0 [saved_line; saved_line] 104857600)])
    ok recovery.

(** A session interrupted while restart_guest waits for the shutdown. *)
Definition interrupted_recovery : restart_script :=
  mkRestart ok [Got (0, listing_running); Interrupt] ok [].

Definition session : session_script :=
  mkSession 0 0 ok (λ i, "/tmp/kvm_net_stress_wget_output_" +:+ pretty i)
    [good_batch;
     mkBatch 10 4242 [Got (Running 640 [echo_reply; unreachable] (21 # 2))] ok
       interrupted_recovery].

Definition POST_FILE : string := "/tmp/kvm_net_stress_post_a".
Definition ARG_FILE : string := "/tmp/kvm_net_stress_args_b".
Definition PING_FILE : string := "/tmp/kvm_net_stress_ping_c".

(** The output files of two workers. *)
Definition wget_files : list string := temp_name session <$> seq 0 2.

(** The world when main starts: the module has made its scratch files. *)
Definition loaded : world :=
  mkWorld (mkStats 0 0 0 0 0 0 0) {[POST_FILE; ARG_FILE; PING_FILE]} false [].

End Sample.

(** * Properties *)

Lemma Qgtb_spec (x y : Q) : Qgtb x y = true ↔ (y < x)%Q.
Proof.
  unfold Qgtb. rewrite Qlt_alt.
  destruct (y ?= x)%Q; split; congruence.
Qed.

Lemma hang_stalled size last_size now last_change pf :
  size = last_size → (TIMEOUT < now - last_change)%Q →
  hang size last_size now last_change pf = true.
Proof.
  intros -> Hlate. unfold hang.
  rewrite Z.eqb_refl. apply Qgtb_spec in Hlate. by rewrite Hlate.
Qed.

Lemma hang_probe size last_size now last_change pf :
  truthy pf = true → hang size last_size now last_change pf = true.
Proof. intros Hpf. unfold hang. rewrite Hpf. apply orb_true_r. Qed.

Lemma ping_failed_sample target lines l :
  last lines = Some l →
  ping_failed target lines = Sample (negb (Py.startswith ("64 bytes from " +:+ target) l)).
Proof. intros Hl. unfold ping_failed. by rewrite Hl. Qed.

(** What the hang branch does to the world before it kills and restarts. *)
Lemma stress_hang_unfold guest url k now pf w :
  stress_hang guest url k now pf w =
  (check_output ("kill -9 " +:+ pretty (pid k)) (kill_reply k);;
   restart_guest guest url (recovery k))
    (mkWorld
       (mkStats (s_seq (stats w)) (s_down (stats w)) (s_up (stats w)) now
          (s_start (stats w)) (s_hanged (stats w) + 1) (s_completed (stats w)))
       (files w) (ping_alive w)
       (trace w ++ [hang_line (s_seq (stats w)) pf;
                    Info "killing wget processes ..." []])).
Proof.
  unfold stress_hang, hang_line, get_stats, set_stats, error, info, emit.
  unfold mbind, M_bind at 1 2 3 4. cbn. by rewrite <- app_assoc.
Qed.

Lemma logged_logged w evs1 evs2 :
  logged (logged w evs1) evs2 = logged w (evs1 ++ evs2).
Proof. unfold logged. cbn. by rewrite app_assoc. Qed.

Lemma logged_nil w : logged w [] = w.
Proof. destruct w. unfold logged. cbn. by rewrite app_nil_r. Qed.

Lemma emit_logged e w : emit e w = (Ret (), logged w [e]).
Proof. done. Qed.

(** A poll that finds xargs running and no hang goes on to the next poll. *)
Lemma stress_loop_continue guest target url proc_count k size lines now ps
    last_change last_size w :
  hang size last_size now last_change (ping_failed target lines) = false →
  stress_loop guest target url proc_count k
    (Got (Running size lines now) :: ps) last_change last_size w
  = stress_loop guest target url proc_count k ps
      (if size =? last_size then last_change else now) size
      (logged w [status_line (stats w) now size; Sleep LOG_DELAY]).
Proof.
  intros Hhang. cbn [stress_loop]. rewrite Hhang.
  destruct (Z.eqb_spec size last_size) as [->|Hne]; cbn [negb];
    unfold log_status, sleep, get_stats, emit, mbind, M_bind; cbn;
    by rewrite <- app_assoc.
Qed.

(** The exit branch leaves the hang counter alone. *)
Lemma stress_exit_hanged returncode texts post_size proc_count w :
  s_hanged (stats (stress_exit returncode texts post_size proc_count w).2)
  = s_hanged (stats w).
Proof.
  unfold stress_exit.
  destruct ((returncode =? 0) && _).
  - unfold get_stats, set_stats, raise, mbind, M_bind. cbn.
    by destruct (mapM saved_bytes _).
  - done.
Qed.

Lemma keeps_stats_ret {A} (a : A) : keeps_stats (mret a).
Proof. done. Qed.

Lemma keeps_stats_raise {A} e : keeps_stats (raise (A:=A) e).
Proof. done. Qed.

Lemma keeps_stats_blocked {A} ph : keeps_stats (blocked (A:=A) ph).
Proof. done. Qed.

Lemma keeps_stats_emit e : keeps_stats (emit e).
Proof. done. Qed.

Lemma keeps_stats_bind {A B} (m : M A) (f : A → M B) :
  keeps_stats m → (∀ a, keeps_stats (f a)) → keeps_stats (m ≫= f).
Proof.
  intros Hm Hf w. unfold mbind, M_bind. specialize (Hm w).
  destruct (m w) as [[a|e|ph] w1]; cbn in Hm; [|done..].
  by rewrite Hf.
Qed.

Lemma keeps_stats_check_output cmd r : keeps_stats (check_output cmd r).
Proof.
  unfold check_output. apply keeps_stats_bind; [apply keeps_stats_emit|].
  intros _. destruct r as [[returncode out]|]; [destruct (returncode =? 0)|]; done.
Qed.

Lemma keeps_stats_kvm_state guest listing : keeps_stats (kvm_state guest listing).
Proof.
  unfold kvm_state. apply keeps_stats_bind; [apply keeps_stats_check_output|].
  intros out. by destruct (states_of _ _) as [[|]|].
Qed.

Lemma keeps_stats_wait_for_shutdown guest ls : keeps_stats (wait_for_shutdown guest ls).
Proof.
  induction ls as [|listing ls IH]; cbn [wait_for_shutdown]; [done|].
  apply keeps_stats_bind; [apply keeps_stats_kvm_state|]. intros state.
  destruct (String.eqb state "shut off"); [done|].
  apply keeps_stats_bind; [done|]. intros _.
  apply keeps_stats_bind; [done|]. by intros _.
Qed.

Lemma keeps_stats_wait_for_webserver url ps : keeps_stats (wait_for_webserver url ps).
Proof.
  induction ps as [|attempt ps IH]; cbn [wait_for_webserver].
  - apply keeps_stats_bind; [done|]. by intros _.
  - apply keeps_stats_bind; [done|]. intros _.
    apply keeps_stats_bind.
    + unfold popen_communicate. apply keeps_stats_bind; [done|]. intros _.
      by destruct attempt.
    + intros [returncode err].
      destruct ((returncode =? 0) && Py.contains SAVED err); [done|].
      apply keeps_stats_bind; [done|]. intros _.
      apply keeps_stats_bind; [done|]. by intros _.
Qed.

Lemma keeps_stats_restart_guest guest url k : keeps_stats (restart_guest guest url k).
Proof.
  unfold restart_guest.
  apply keeps_stats_bind; [done|]. intros _.
  apply keeps_stats_bind; [apply keeps_stats_check_output|]. intros _.
  apply keeps_stats_bind; [apply keeps_stats_wait_for_shutdown|]. intros _.
  apply keeps_stats_bind; [done|]. intros _.
  apply keeps_stats_bind; [done|]. intros _.
  apply keeps_stats_bind; [apply keeps_stats_check_output|]. intros _.
  apply keeps_stats_wait_for_webserver.
Qed.


(** ** The recovery loops *)

Lemma check_output_run cmd r w :
  check_output cmd r w =
  (match r with
   | Got (returncode, out) =>
       if returncode =? 0 then Ret out else Raise (CalledProcessError returncode cmd)
   | Interrupt => Raise KeyboardInterrupt
   end, logged w [Shell cmd]).
Proof.
  unfold check_output, emit, raise, mbind, M_bind, mret, M_ret. cbn.
  destruct r as [[returncode out]|]; [destruct (returncode =? 0)|]; done.
Qed.

Lemma kvm_state_run guest listing w :
  kvm_state guest listing w = (queryState guest listing, logged w [Shell "virsh list --all"]).
Proof.
  unfold queryState, kvm_state, mbind, M_bind. rewrite !check_output_run.
  destruct listing as [[returncode out]|]; [destruct (returncode =? 0)|]; try done.
  unfold raise, mret, M_ret. by destruct (states_of _ _) as [[|]|].
Qed.

Lemma wait_for_shutdown_retry guest listing ls state w :
  queryState guest listing = Ret state → state ≠ "shut off" →
  wait_for_shutdown guest (listing :: ls) w
  = wait_for_shutdown guest ls (logged w (shutdown_retry state)).
Proof.
  intros Hstate Hon. cbn [wait_for_shutdown].
  unfold mbind, M_bind at 1. rewrite kvm_state_run, Hstate.
  apply String.eqb_neq in Hon. rewrite Hon.
  unfold info, sleep, emit, mbind, M_bind. cbn.
  unfold logged. cbn. by rewrite <- !app_assoc.
Qed.

Lemma wait_for_shutdown_off guest listing ls w :
  queryState guest listing = Ret "shut off" →
  wait_for_shutdown guest (listing :: ls) w
  = (Ret (), logged w [Shell "virsh list --all"]).
Proof.
  intros Hstate. cbn [wait_for_shutdown].
  unfold mbind, M_bind at 1. by rewrite kvm_state_run, Hstate.
Qed.

(** Answers other than 'shut off' keep the first loop turning. *)
Lemma wait_for_shutdown_retries guest ls : ∀ states tl w,
  Forall2 (λ listing state, queryState guest listing = Ret state ∧ state ≠ "shut off")
    ls states →
  wait_for_shutdown guest (ls ++ tl) w
  = wait_for_shutdown guest tl (logged w (states ≫= shutdown_retry)).
Proof.
  induction ls as [|listing ls IH]; intros states tl w Hall.
  - apply Forall2_nil_inv_l in Hall as ->. by rewrite logged_nil.
  - apply Forall2_cons_inv_l in Hall as (state & states' & [Hstate Hon] & Hall & ->).
    cbn [app]. rewrite (wait_for_shutdown_retry _ _ _ state) by done.
    rewrite (IH _ _ _ Hall), logged_logged. done.
Qed.

(** The first loop is left only through an answer 'shut off', the turns
    before it having all answered something else. *)
Lemma wait_for_shutdown_returns guest ls : ∀ w,
  (wait_for_shutdown guest ls w).1 = Ret () →
  ∃ ls1 listing ls2 states,
    ls = ls1 ++ listing :: ls2
    ∧ queryState guest listing = Ret "shut off"
    ∧ Forall2 (λ l state, queryState guest l = Ret state ∧ state ≠ "shut off") ls1 states.
Proof.
  induction ls as [|listing ls IH]; intros w Hret; [done|].
  destruct (queryState guest listing) as [state|e|ph] eqn:Hstate.
  - destruct (String.eqb_spec state "shut off") as [->|Hon].
    + exists [], listing, ls, []. by repeat split.
    + rewrite (wait_for_shutdown_retry _ _ _ state) in Hret by done.
      destruct (IH _ Hret) as (ls1 & l & ls2 & states & -> & Hoff & Hall).
      exists (listing :: ls1), l, ls2, (state :: states).
      repeat split; [done|]. by constructor.
  - exfalso. cbn [wait_for_shutdown] in Hret.
    unfold mbind, M_bind in Hret. by rewrite kvm_state_run, Hstate in Hret.
  - exfalso. cbn [wait_for_shutdown] in Hret.
    unfold mbind, M_bind in Hret. by rewrite kvm_state_run, Hstate in Hret.
Qed.

Lemma appends_ret P {A} (a : A) : appends P (mret a).
Proof. intros w. split; [done|]. exists []. by rewrite app_nil_r. Qed.

Lemma appends_raise P {A} e : appends P (raise (A:=A) e).
Proof. intros w. split; [done|]. exists []. by rewrite app_nil_r. Qed.

Lemma appends_blocked P {A} ph : appends P (blocked (A:=A) ph).
Proof. intros w. split; [done|]. exists []. by rewrite app_nil_r. Qed.

Lemma appends_emit (P : event → Prop) e : P e → appends P (emit e).
Proof. intros He w. split; [done|]. exists [e]. split; [done|]. by constructor. Qed.

Lemma appends_bind P {A B} (m : M A) (f : A → M B) :
  appends P m → (∀ a, appends P (f a)) → appends P (m ≫= f).
Proof.
  intros Hm Hf w. unfold mbind, M_bind.
  destruct (Hm w) as (Hfs1 & evs1 & Htr1 & HP1).
  destruct (m w) as [[a|e|ph] w1]; cbn in Htr1, Hfs1;
    [|split; [done|by exists evs1]..].
  destruct (Hf a w1) as (Hfs2 & evs2 & Htr2 & HP2).
  split; [set_solver|].
  exists (evs1 ++ evs2). rewrite Htr2, Htr1, app_assoc. split; [done|].
  by apply Forall_app.
Qed.

Lemma appends_check_output (P : event → Prop) cmd r :
  P (Shell cmd) → appends P (check_output cmd r).
Proof.
  intros HP w. rewrite check_output_run. split; [done|]. exists [Shell cmd].
  split; [done|]. by constructor.
Qed.

Lemma appends_kvm_state (P : event → Prop) guest listing :
  P (Shell "virsh list --all") → appends P (kvm_state guest listing).
Proof.
  intros HP w. rewrite kvm_state_run. split; [done|].
  exists [Shell "virsh list --all"]. split; [done|]. by constructor.
Qed.

Lemma appends_wait_for_shutdown (P : event → Prop) guest ls :
  P (Shell "virsh list --all") → (∀ fmt args, P (Info fmt args)) →
  (∀ d, P (Sleep d)) →
  appends P (wait_for_shutdown guest ls).
Proof.
  intros Hlist Hinfo Hsleep.
  induction ls as [|listing ls IH]; cbn [wait_for_shutdown].
  - apply appends_blocked.
  - apply appends_bind; [by apply appends_kvm_state|]. intros state.
    destruct (String.eqb state "shut off"); [apply appends_ret|].
    apply appends_bind; [by apply appends_emit|]. intros _.
    apply appends_bind; [by apply appends_emit|]. by intros _.
Qed.

Lemma appends_wait_for_webserver (P : event → Prop) url ps :
  (∀ argv, P (Popen argv)) → (∀ fmt args, P (Info fmt args)) →
  (∀ d, P (Sleep d)) →
  appends P (wait_for_webserver url ps).
Proof.
  intros Hpopen Hinfo Hsleep.
  induction ps as [|attempt ps IH]; cbn [wait_for_webserver].
  - apply appends_bind; [by apply appends_emit|]. intros _. apply appends_blocked.
  - apply appends_bind; [by apply appends_emit|]. intros _.
    apply appends_bind.
    + unfold popen_communicate.
      apply appends_bind; [by apply appends_emit|]. intros _.
      destruct attempt; [apply appends_ret|apply appends_raise].
    + intros [returncode err].
      destruct ((returncode =? 0) && Py.contains SAVED err); [apply appends_ret|].
      apply appends_bind; [by apply appends_emit|]. intros _.
      apply appends_bind; [by apply appends_emit|]. by intros _.
Qed.

(** What follows the shutdown command in restart_guest does not issue it
    again. *)
Lemma restart_guest_tail_no_shutdown guest url k :
  appends (λ e, is_shutdown guest e = false)
    (wait_for_shutdown guest (listings k);;
     sleep 1;;
     info "starting guest..." [];;
     check_output ("virsh start " +:+ guest) (start_reply k);;
     wait_for_webserver url (probes k)).
Proof.
  apply appends_bind; [by apply appends_wait_for_shutdown|]. intros _.
  apply appends_bind; [by apply appends_emit|]. intros _.
  apply appends_bind; [by apply appends_emit|]. intros _.
  apply appends_bind; [by apply appends_check_output|]. intros _.
  by apply appends_wait_for_webserver.
Qed.

Lemma filter_none {A} (f : A → bool) (l : list A) :
  Forall (λ x, f x = false) l → List.filter f l = [].
Proof.
  induction 1 as [|x l Hx _ IH]; [done|]. cbn. by rewrite Hx.
Qed.

Lemma is_shutdown_cmd guest : is_shutdown guest (Shell ("virsh shutdown " +:+ guest)) = true.
Proof. cbn. apply String.eqb_refl. Qed.

(** restart_guest from its second command on. *)
Lemma restart_guest_run guest url k w :
  restart_guest guest url k w =
  (check_output ("virsh shutdown " +:+ guest) (shutdown_reply k);;
   wait_for_shutdown guest (listings k);;
   sleep 1;;
   info "starting guest..." [];;
   check_output ("virsh start " +:+ guest) (start_reply k);;
   wait_for_webserver url (probes k))
    (logged w [Info "shutdown guest..." []]).
Proof. done. Qed.

(** C5.  restart_guest issues the shutdown command once, whatever the
    outside answers.  While the listings show the guest in a state other
    than 'shut off', each turn of the first loop logs the state, sleeps
    half a second and asks again, for any number of turns; the function
    goes on to start the guest as soon as a listing shows 'shut off', and
    the loop is left in no other way. *)
Theorem shutdown_once_then_wait_for_off guest url k w :
  (∃ evs, trace (restart_guest guest url k w).2 = trace w ++ evs
          ∧ length (List.filter (is_shutdown guest) evs) = 1%nat)
  ∧ (∀ out ls states tl,
       shutdown_reply k = Got (0, out) →
       listings k = ls ++ tl →
       Forall2 (λ listing state,
                  queryState guest listing = Ret state ∧ state ≠ "shut off")
         ls states →
       let w' := logged w ([Info "shutdown guest..." [];
                            Shell ("virsh shutdown " +:+ guest)]
                           ++ (states ≫= shutdown_retry)) in
       (tl = [] → restart_guest guest url k w = (Blocked ShuttingDown, w'))
       ∧ (∀ listing rest,
            tl = listing :: rest →
            queryState guest listing = Ret "shut off" →
            restart_guest guest url k w =
            (sleep 1;;
             info "starting guest..." [];;
             check_output ("virsh start " +:+ guest) (start_reply k);;
             wait_for_webserver url (probes k))
              (logged w' [Shell "virsh list --all"])))
  ∧ (∀ ls w0,
       (wait_for_shutdown guest ls w0).1 = Ret () →
       ∃ ls1 listing ls2 states,
         ls = ls1 ++ listing :: ls2
         ∧ queryState guest listing = Ret "shut off"
         ∧ Forall2 (λ l state, queryState guest l = Ret state ∧ state ≠ "shut off")
             ls1 states).
Proof.
  split; [|split].
  - rewrite restart_guest_run. unfold mbind at 1, M_bind at 1.
    rewrite check_output_run.
    pose proof (is_shutdown_cmd guest) as Hcmd.
    destruct (shutdown_reply k) as [[returncode out]|];
      [destruct (returncode =? 0)|].
    + destruct (restart_guest_tail_no_shutdown guest url k
                  (logged (logged w [Info "shutdown guest..." []])
                     [Shell ("virsh shutdown " +:+ guest)]))
        as (_ & evs & -> & Hquiet).
      exists ([Info "shutdown guest..." []; Shell ("virsh shutdown " +:+ guest)] ++ evs).
      split; [cbn; by rewrite <- !app_assoc|].
      rewrite List.filter_app, (filter_none _ evs Hquiet), app_nil_r.
      cbn [List.filter]. change (is_shutdown guest (Info _ _)) with false.
      by rewrite Hcmd.
    + exists [Info "shutdown guest..." []; Shell ("virsh shutdown " +:+ guest)].
      split; [cbn; by rewrite <- !app_assoc|].
      cbn [List.filter]. change (is_shutdown guest (Info _ _)) with false.
      by rewrite Hcmd.
    + exists [Info "shutdown guest..." []; Shell ("virsh shutdown " +:+ guest)].
      split; [cbn; by rewrite <- !app_assoc|].
      cbn [List.filter]. change (is_shutdown guest (Info _ _)) with false.
      by rewrite Hcmd.
  - intros out ls states tl Hdown Hls Hall w'.
    assert (Hrun : restart_guest guest url k w =
      (wait_for_shutdown guest tl;;
       sleep 1;;
       info "starting guest..." [];;
       check_output ("virsh start " +:+ guest) (start_reply k);;
       wait_for_webserver url (probes k)) w').
    { rewrite restart_guest_run. unfold mbind at 1, M_bind at 1.
      rewrite check_output_run, Hdown. cbn [Z.eqb].
      unfold mbind at 1 5, M_bind at 1 5.
      rewrite Hls, (wait_for_shutdown_retries _ _ states) by done.
      by rewrite !logged_logged. }
    split.
    + intros ->. by rewrite Hrun.
    + intros listing rest -> Hoff. rewrite Hrun.
      unfold mbind at 1, M_bind at 1. by rewrite wait_for_shutdown_off.
  - intros ls w0. apply wait_for_shutdown_returns.
Qed.

Lemma saved_spec returncode err :
  saved (returncode, err) = true ↔ returncode = 0 ∧ Py.contains SAVED err = true.
Proof. unfold saved. cbn. rewrite andb_true_iff, Z.eqb_eq. done. Qed.

Lemma wait_for_webserver_retry url attempt ps w :
  saved attempt = false →
  wait_for_webserver url (Got attempt :: ps) w
  = wait_for_webserver url ps (logged w (probe_retry url attempt)).
Proof.
  intros Hbad. destruct attempt as [returncode err]. unfold saved in Hbad.
  cbn [wait_for_webserver fst snd] in *.
  unfold popen_communicate, info, sleep, emit, mbind, M_bind, mret, M_ret.
  cbn. rewrite Hbad. unfold logged, probe_retry. cbn. by rewrite <- !app_assoc.
Qed.

Lemma wait_for_webserver_ready url attempt ps w :
  saved attempt = true →
  wait_for_webserver url (Got attempt :: ps) w
  = (Ret (), logged w [Info "waiting for webserver..." []; Popen (probe_cmd url)]).
Proof.
  intros Hgood. destruct attempt as [returncode err]. unfold saved in Hgood.
  cbn [wait_for_webserver fst snd] in *.
  unfold popen_communicate, info, sleep, emit, mbind, M_bind, mret, M_ret.
  cbn. rewrite Hgood. unfold logged. cbn. by rewrite <- !app_assoc.
Qed.

(** Attempts that are not good keep the second loop turning. *)
Lemma wait_for_webserver_retries url attempts : ∀ tl w,
  Forall (λ a, saved a = false) attempts →
  wait_for_webserver url ((Got <$> attempts) ++ tl) w
  = wait_for_webserver url tl (logged w (attempts ≫= probe_retry url)).
Proof.
  induction attempts as [|attempt attempts IH]; intros tl w Hall.
  - by rewrite logged_nil.
  - apply Forall_cons in Hall as [Hbad Hall].
    cbn [fmap list_fmap app]. rewrite wait_for_webserver_retry by done.
    rewrite (IH _ _ Hall), logged_logged. done.
Qed.

(** The second loop is left only through a good attempt, the attempts
    before it having all been answered and found not good. *)
Lemma wait_for_webserver_returns url ps : ∀ w,
  (wait_for_webserver url ps w).1 = Ret () →
  ∃ attempts attempt rest,
    ps = (Got <$> attempts) ++ Got attempt :: rest
    ∧ saved attempt = true
    ∧ Forall (λ a, saved a = false) attempts.
Proof.
  induction ps as [|[attempt|] ps IH]; intros w Hret; [done| |done].
  destruct (saved attempt) eqn:Hsaved.
  - exists [], attempt, ps. by repeat split.
  - rewrite wait_for_webserver_retry in Hret by done.
    destruct (IH _ Hret) as (attempts & good & rest & -> & Hgood & Hall).
    exists (attempt :: attempts), good, rest. repeat split; [done|].
    by constructor.
Qed.

Lemma bind_returns {A B} (m : M A) (f : A → M B) w b :
  ((m ≫= f) w).1 = Ret b → ∃ a w1, m w = (Ret a, w1) ∧ (f a w1).1 = Ret b.
Proof.
  unfold mbind, M_bind. destruct (m w) as [[a|e|ph] w1]; [|done..].
  intros Hf. by exists a, w1.
Qed.

(** C6.  In the second loop of restart_guest an attempt is good when wget
    exits with status zero and its output has the text that marks a saved
    answer.  Attempts that are not good, whatever the status and the text,
    each log the failure and sleep one second, for any number of turns; the
    loop returns at the first good attempt, and neither it nor restart_guest
    returns in any other way. *)
Theorem service_wait_until_saved url :
  (∀ returncode err,
     saved (returncode, err) = true ↔ returncode = 0 ∧ Py.contains SAVED err = true)
  ∧ (∀ attempts w,
       Forall (λ a, saved a = false) attempts →
       let w' := logged w (attempts ≫= probe_retry url) in
       wait_for_webserver url (Got <$> attempts) w
       = (Blocked WaitingForService, logged w' [Info "waiting for webserver..." []])
       ∧ (∀ attempt rest,
            saved attempt = true →
            wait_for_webserver url ((Got <$> attempts) ++ Got attempt :: rest) w
            = (Ret (), logged w' [Info "waiting for webserver..." [];
                                  Popen (probe_cmd url)])))
  ∧ (∀ ps w,
       (wait_for_webserver url ps w).1 = Ret () →
       ∃ attempts attempt rest,
         ps = (Got <$> attempts) ++ Got attempt :: rest
         ∧ saved attempt = true
         ∧ Forall (λ a, saved a = false) attempts)
  ∧ (∀ guest k w,
       (restart_guest guest url k w).1 = Ret () →
       ∃ attempts attempt rest,
         probes k = (Got <$> attempts) ++ Got attempt :: rest
         ∧ saved attempt = true
         ∧ Forall (λ a, saved a = false) attempts).
Proof.
  split; [apply saved_spec|]. split; [|split].
  - intros attempts w Hall w'. split.
    + rewrite <- (app_nil_r (Got <$> attempts)).
      by rewrite wait_for_webserver_retries.
    + intros attempt rest Hgood.
      by rewrite wait_for_webserver_retries, wait_for_webserver_ready.
  - intros ps w. apply wait_for_webserver_returns.
  - intros guest k w Hret. unfold restart_guest in Hret.
    do 6 (apply bind_returns in Hret as (? & ? & _ & Hret)).
    by apply wait_for_webserver_returns in Hret.
Qed.

(** ** A guest that the listing does not show *)

Lemma states_of_unlisted guest rows :
  Forall (λ row, length row = 3%nat ∧ row !! 1%nat ≠ Some guest) rows →
  states_of guest rows = Some [].
Proof.
  induction 1 as [|row rows [Hlen Hname] _ IH]; [done|].
  destruct row as [|id [|name [|state [|]]]]; try done.
  cbn [states_of]. rewrite IH. cbn.
  destruct (String.eqb_spec name guest) as [->|]; [|done].
  by destruct Hname.
Qed.

Lemma queryState_unlisted guest out :
  Forall (λ row, length row = 3%nat ∧ row !! 1%nat ≠ Some guest) (listing_rows out) →
  queryState guest (Got (0, out)) = Ret "COULD NOT DETECT STATE".
Proof.
  intros Hrows. unfold queryState, kvm_state, mbind, M_bind.
  rewrite check_output_run. cbn [Z.eqb]. by rewrite states_of_unlisted.
Qed.

(** C10.  Take listings whose rows all have the three columns of virsh and
    none of which names the guest.  kvm_state returns 'COULD NOT DETECT
    STATE' for each of them and raises nothing, and the first loop of
    restart_guest, which waits for 'shut off', logs that state, sleeps and
    asks again for each of them: it is still waiting when they end. *)
Theorem unlisted_guest_keeps_polling guest (outs : list string) w :
  Forall (λ out,
            Forall (λ row, length row = 3%nat ∧ row !! 1%nat ≠ Some guest)
              (listing_rows out)) outs →
  Forall (λ out, ∀ w0,
            kvm_state guest (Got (0, out)) w0
            = (Ret "COULD NOT DETECT STATE", logged w0 [Shell "virsh list --all"]))
    outs
  ∧ wait_for_shutdown guest ((λ out, Got (0, out)) <$> outs) w
    = (Blocked ShuttingDown,
       logged w (outs ≫= λ _, shutdown_retry "COULD NOT DETECT STATE")).
Proof.
  intros Hall. split.
  - eapply Forall_impl; [exact Hall|]. intros out Hrows w0. cbn beta in Hrows.
    by rewrite kvm_state_run, queryState_unlisted.
  - rewrite <- (app_nil_r (_ <$> outs)).
    rewrite (wait_for_shutdown_retries guest _
               ((λ _, "COULD NOT DETECT STATE") <$> outs) [] w).
    + cbn [wait_for_shutdown]. unfold blocked. do 2 f_equal.
      clear Hall. induction outs as [|out outs IH]; [done|].
      cbn. by rewrite IH.
    + apply Forall2_fmap, Forall_Forall2_diag.
      eapply Forall_impl; [exact Hall|]. intros out Hrows. cbn beta in Hrows.
      split; [by apply queryState_unlisted|done].
Qed.

Lemma appends_get_stats P : appends P get_stats.
Proof. intros w. split; [done|]. exists []. by rewrite app_nil_r. Qed.

Lemma appends_set_stats P s : appends P (set_stats s).
Proof. intros w. split; [done|]. exists []. by rewrite app_nil_r. Qed.

Lemma appends_write_text (P : event → Prop) path text :
  P (WriteText path text) → appends P (write_text path text).
Proof.
  intros HP w. split; [cbn; set_solver|].
  exists [WriteText path text]. split; [done|]. by constructor.
Qed.

Lemma appends_restart_guest guest url k :
  appends (λ _, True) (restart_guest guest url k).
Proof.
  unfold restart_guest.
  apply appends_bind; [by apply appends_emit|]. intros _.
  apply appends_bind; [by apply appends_check_output|]. intros _.
  apply appends_bind; [by apply appends_wait_for_shutdown|]. intros _.
  apply appends_bind; [by apply appends_emit|]. intros _.
  apply appends_bind; [by apply appends_emit|]. intros _.
  apply appends_bind; [by apply appends_check_output|]. intros _.
  by apply appends_wait_for_webserver.
Qed.

(** ** The poll loop *)

(** The hang branch counts and reports the hang whatever the kill and the
    restart do afterwards. *)
Lemma stress_hang_hung guest url k now pf w :
  hung_with pf now w (stress_hang guest url k now pf w).2.
Proof.
  rewrite stress_hang_unfold.
  set (tail := check_output _ _ ≫= _). set (w1 := mkWorld _ _ _ _).
  assert (Hstats : keeps_stats tail).
  { apply keeps_stats_bind; [apply keeps_stats_check_output|]. intros _.
    apply keeps_stats_restart_guest. }
  assert (Htrace : appends (λ _, True) tail).
  { apply appends_bind; [by apply appends_check_output|]. intros _.
    apply appends_restart_guest. }
  destruct (Htrace w1) as (_ & evs & Hevs & _).
  unfold hung_with. rewrite Hstats, Hevs. subst w1. cbn.
  split; [done|]. split; [done|].
  eexists. by rewrite <- app_assoc.
Qed.

Section StallDetector.

Variables (guest target url : string) (proc_count : Z) (k : batch_script).

(** C1 (as amended).  In a poll that finds xargs running, the size of the
    log equal to the last size seen and the last change more than TIMEOUT
    seconds old, the loop takes the hang branch whatever the log says of
    the probe: the hang is counted, dated and reported.  The hang line
    reports no-progress exactly when the latest probe line is not a
    failure; with a failed probe it reports the probe. *)
Theorem stalled_poll_is_hung size lines now ps last_change last_size w :
  size = last_size →
  (TIMEOUT < now - last_change)%Q →
  stress_loop guest target url proc_count k
    (Got (Running size lines now) :: ps) last_change last_size w
  = stress_hang guest url k now (ping_failed target lines) w
  ∧ hung_with (ping_failed target lines) now w
      (stress_loop guest target url proc_count k
         (Got (Running size lines now) :: ps) last_change last_size w).2
  ∧ (reported_reason (ping_failed target lines) = no_progress
     ↔ ping_failed target lines ≠ Sample true).
Proof.
  intros Hsize Hlate.
  assert (Hrun : stress_loop guest target url proc_count k
                   (Got (Running size lines now) :: ps) last_change last_size w
                 = stress_hang guest url k now (ping_failed target lines) w).
  { cbn [stress_loop]. by rewrite hang_stalled. }
  split; [exact Hrun|]. split.
  - rewrite Hrun. apply stress_hang_hung.
  - unfold reported_reason.
    destruct (ping_failed target lines) as [|[]]; cbn; split; congruence.
Qed.

(** C2.  In a poll that finds xargs running and a last line of the ping
    log that is not an echo reply from the target, the loop takes the hang
    branch in that very poll, whatever the size of the log and the time of
    its last change: the hang is counted, dated and reported, and the hang
    line reports the failed probe. *)
Theorem failed_probe_is_hung size lines l now ps last_change last_size w :
  last lines = Some l →
  Py.startswith ("64 bytes from " +:+ target) l = false →
  stress_loop guest target url proc_count k
    (Got (Running size lines now) :: ps) last_change last_size w
  = stress_hang guest url k now (Sample true) w
  ∧ hung_with (Sample true) now w
      (stress_loop guest target url proc_count k
         (Got (Running size lines now) :: ps) last_change last_size w).2
  ∧ reported_reason (Sample true) = probe_failure.
Proof.
  intros Hl Hfail.
  assert (Hrun : stress_loop guest target url proc_count k
                   (Got (Running size lines now) :: ps) last_change last_size w
                 = stress_hang guest url k now (Sample true) w).
  { cbn [stress_loop]. rewrite (ping_failed_sample _ _ _ Hl), Hfail. cbn [negb].
    by rewrite hang_probe. }
  split; [exact Hrun|]. split; [|done].
  rewrite Hrun. apply stress_hang_hung.
Qed.

(** Shifting the hypotheses of a steady run past its first poll. *)
Lemma steady_tail r rs last_change last_size :
  clock_monotone last_change (r :: rs) →
  progress_every_timeout last_change last_size (r :: rs) →
  clock_monotone (if size_of r =? last_size then last_change else time_of r) rs
  ∧ progress_every_timeout
      (if size_of r =? last_size then last_change else time_of r) (size_of r) rs.
Proof.
  intros [Hstart Hmono] Hprog.
  assert (Hr : (last_change <= time_of r)%Q) by exact (Hstart 0%nat r eq_refl).
  split; [split|].
  - intros i ri Hi.
    destruct (size_of r =? last_size).
    + exact (Hstart (S i) ri Hi).
    + exact (Hmono 0%nat (S i) r ri (Nat.le_0_l _) eq_refl Hi).
  - intros i j ri rj Hij Hi Hj.
    exact (Hmono (S i) (S j) ri rj (le_n_S _ _ Hij) Hi Hj).
  - intros i ri Hi.
    destruct (Hprog (S i) ri Hi) as [Hearly|(j & rj & Hji & Hgrow & Hj & Hnear)].
    + left. destruct (size_of r =? last_size); lra.
    + destruct j as [|j].
      * destruct Hgrow as (before & r' & Hb & Hr' & Hlt).
        cbn in Hb, Hr', Hj. simplify_eq.
        left. destruct (Z.eqb_spec (size_of r') before); [lia|done].
      * right. exists j, rj. split; [lia|]. split; [|done].
        destruct Hgrow as (before & r' & Hb & Hr' & Hlt).
        exists before, r'. done.
Qed.

(** A run of polls that keep the hypotheses goes through the loop without
    a hang: the loop is then at the polls that follow. *)
Lemma watch_steady rs : ∀ last_change last_size tl w,
  probe_succeeds target rs →
  clock_monotone last_change rs →
  progress_every_timeout last_change last_size rs →
  ∃ last_change' last_size',
    stress_loop guest target url proc_count k
      ((running <$> rs) ++ tl) last_change last_size w
    = stress_loop guest target url proc_count k tl last_change' last_size'
        (logged w (watch_trace (stats w) rs)).
Proof.
  induction rs as [|r rs IH]; intros last_change last_size tl w Hprobe Hclock Hprog.
  - exists last_change, last_size. cbn. by rewrite logged_nil.
  - assert (Hhang : hang (size_of r) last_size (time_of r) last_change
                      (ping_failed target (lines_of r)) = false).
    { unfold hang. rewrite (Hprobe 0%nat r eq_refl). cbn [truthy].
      rewrite orb_false_r. apply andb_false_iff.
      destruct (Z.eqb_spec (size_of r) last_size) as [Heq|Hne]; [right|by left].
      apply not_true_is_false. rewrite Qgtb_spec. intros Hlate.
      destruct (Hprog 0%nat r eq_refl) as [Hearly|(j & rj & Hj & Hgrow & _)].
      - lra.
      - assert (j = 0%nat) as -> by lia.
        destruct Hgrow as (before & r' & Hb & Hr' & Hlt).
        cbn in Hb, Hr'. simplify_eq. lia. }
    destruct (steady_tail r rs last_change last_size Hclock Hprog) as [Hclock' Hprog'].
    assert (Hprobe' : probe_succeeds target rs).
    { intros i ri Hi. exact (Hprobe (S i) ri Hi). }
    cbn [fmap list_fmap app]. unfold running at 1.
    rewrite stress_loop_continue by done.
    destruct (IH _ _ tl (logged w [status_line (stats w) (time_of r) (size_of r);
                                    Sleep LOG_DELAY]) Hprobe' Hclock' Hprog')
      as (last_change' & last_size' & ->).
    exists last_change', last_size'. by rewrite logged_logged.
Qed.

Variables (POST_FILE ARG_FILE : string) (rate : option string)
          (wget_files : list string).

(** What stress does before its first poll (lines 103-109). *)
Lemma stress_start w :
  stress POST_FILE ARG_FILE guest target url rate wget_files proc_count k w
  = stress_loop guest target url proc_count k (polls k) (t0 k) 0
      (mkWorld (stats w) ({[ARG_FILE]} ∪ files w) (ping_alive w)
         (trace w ++ [WriteText ARG_FILE (arg_text wget_files);
                      Popen (Py.words (xargs_cmd POST_FILE ARG_FILE url rate proc_count))])).
Proof.
  unfold stress, write_text, emit, mbind, M_bind. cbn.
  by rewrite <- app_assoc.
Qed.

(** C3.  Take a batch whose polls find xargs running, the last line of
    the ping log an echo reply, a clock that does not run backwards, and
    every poll at most TIMEOUT seconds after the start of the batch or
    after a poll that saw the log grow.  Then stress takes no hang branch:
    it writes a status line and sleeps for each of these polls and the
    hang counter stays as it was; if the polls end there the loop is still
    polling, and if the next poll finds xargs exited the batch is
    finished by the exit branch. *)
Theorem steady_batch_is_never_hung (rs : list sample) tl w :
  polls k = ((running <$> rs) ++ tl)%list →
  probe_succeeds target rs →
  clock_monotone (t0 k) rs →
  progress_every_timeout (t0 k) 0 rs →
  ∃ w',
    stats w' = stats w
    ∧ trace w' = (trace w
        ++ [WriteText ARG_FILE (arg_text wget_files);
            Popen (Py.words (xargs_cmd POST_FILE ARG_FILE url rate proc_count))]
        ++ watch_trace (stats w) rs)%list
    ∧ (tl = [] →
       stress POST_FILE ARG_FILE guest target url rate wget_files proc_count k w
       = (Blocked Polling, w'))
    ∧ (∀ returncode texts post_size rest,
         tl = Got (Exited returncode texts post_size) :: rest →
         stress POST_FILE ARG_FILE guest target url rate wget_files proc_count k w
         = stress_exit returncode texts post_size proc_count w'
         ∧ s_hanged (stats (stress_exit returncode texts post_size proc_count w').2)
           = s_hanged (stats w)).
Proof.
  intros Hpolls Hprobe Hclock Hprog.
  set (w1 := mkWorld (stats w) ({[ARG_FILE]} ∪ files w) (ping_alive w)
               (trace w ++ [WriteText ARG_FILE (arg_text wget_files);
                            Popen (Py.words (xargs_cmd POST_FILE ARG_FILE url rate
                                               proc_count))])).
  destruct (watch_steady rs (t0 k) 0 tl w1 Hprobe Hclock Hprog)
    as (last_change & last_size & Hrun).
  exists (logged w1 (watch_trace (stats w1) rs)).
  split; [done|]. split; [cbn; by rewrite <- app_assoc|].
  split.
  - intros ->. rewrite stress_start, Hpolls. fold w1. by rewrite Hrun.
  - intros returncode texts post_size rest ->.
    split; [rewrite stress_start, Hpolls; fold w1; by rewrite Hrun|].
    by rewrite stress_exit_hanged.
Qed.

End StallDetector.

(** ** The scratch files and the ping process *)

Lemma appends_stress_exit returncode texts post_size proc_count :
  appends (λ _, True) (stress_exit returncode texts post_size proc_count).
Proof.
  unfold stress_exit. destruct ((returncode =? 0) && _).
  - apply appends_bind; [apply appends_get_stats|]. intros s.
    destruct (mapM saved_bytes _); [apply appends_set_stats|apply appends_raise].
  - apply appends_bind; [by apply appends_emit|]. intros _. apply appends_raise.
Qed.

Lemma appends_stress_hang guest url k now pf :
  appends (λ _, True) (stress_hang guest url k now pf).
Proof.
  unfold stress_hang.
  apply appends_bind; [apply appends_get_stats|]. intros s.
  apply appends_bind; [apply appends_set_stats|]. intros _.
  apply appends_bind; [by apply appends_emit|]. intros _.
  apply appends_bind; [by apply appends_emit|]. intros _.
  apply appends_bind; [by apply appends_check_output|]. intros _.
  apply appends_restart_guest.
Qed.

Lemma appends_stress_loop guest target url proc_count k ps :
  ∀ last_change last_size,
    appends (λ _, True)
      (stress_loop guest target url proc_count k ps last_change last_size).
Proof.
  induction ps as [|[[returncode texts post_size|size lines now]|] ps IH];
    intros last_change last_size; cbn [stress_loop].
  - apply appends_blocked.
  - apply appends_stress_exit.
  - destruct (hang _ _ _ _ _); [apply appends_stress_hang|].
    destruct (negb _).
    + apply appends_bind.
      { apply appends_bind; [apply appends_get_stats|]. intros s.
        by apply appends_emit. }
      intros _. apply appends_bind; [by apply appends_emit|]. intros _. apply IH.
    + apply appends_bind.
      { apply appends_bind; [apply appends_get_stats|]. intros s.
        by apply appends_emit. }
      intros _. apply appends_bind; [by apply appends_emit|]. intros _. apply IH.
  - apply appends_raise.
Qed.

Section Session.

Variables POST_FILE ARG_FILE PING_FILE : string.
Variables (guest target url : string) (rate : option string).
Variables (wget_files : list string) (proc_count : Z).

Lemma appends_stress k :
  appends (λ _, True)
    (stress POST_FILE ARG_FILE guest target url rate wget_files proc_count k).
Proof.
  unfold stress.
  apply appends_bind; [by apply appends_write_text|]. intros _.
  apply appends_bind; [by apply appends_emit|]. intros _.
  apply appends_stress_loop.
Qed.

Lemma appends_main_loop bs : ∀ seq,
  appends (λ _, True)
    (main_loop POST_FILE ARG_FILE guest target url rate wget_files proc_count seq bs).
Proof.
  induction bs as [|k bs IH]; intros seq; cbn [main_loop].
  - apply appends_blocked.
  - apply appends_bind; [apply appends_get_stats|]. intros s.
    apply appends_bind; [apply appends_set_stats|]. intros _.
    apply appends_bind; [apply appends_stress|]. intros _. apply IH.
Qed.

(** Removing files that are there, each of them once. *)
Lemma remove_all_run paths : ∀ w,
  NoDup paths → (∀ p, p ∈ paths → p ∈ files w) →
  remove_all paths w
  = (Ret (), mkWorld (stats w) (files w ∖ list_to_set paths) (ping_alive w)
               (trace w ++ (Remove <$> paths))).
Proof.
  induction paths as [|p paths IH]; intros w Hnodup Hin.
  - cbn. destruct w. cbn. f_equal. f_equal; [set_solver|by rewrite app_nil_r].
  - apply NoDup_cons in Hnodup as [Hp Hnodup].
    cbn [remove_all]. unfold mbind, M_bind, remove.
    rewrite decide_True by (apply Hin; left).
    rewrite IH; [|done|].
    + cbn. f_equal. f_equal; [set_solver|by rewrite <- app_assoc].
    + intros q Hq. cbn. apply elem_of_difference. split; [apply Hin; by right|].
      set_solver.
Qed.

Lemma cleanup_run w :
  NoDup ([POST_FILE; ARG_FILE; PING_FILE] ++ wget_files) →
  (∀ p, p ∈ [POST_FILE; ARG_FILE; PING_FILE] ++ wget_files → p ∈ files w) →
  cleanup POST_FILE ARG_FILE PING_FILE wget_files w
  = (Ret (),
     mkWorld (stats w)
       (files w ∖ list_to_set ([POST_FILE; ARG_FILE; PING_FILE] ++ wget_files))
       false
       (trace w ++ (Remove <$> [POST_FILE; ARG_FILE; PING_FILE] ++ wget_files)
          ++ [KillPing])).
Proof.
  intros Hnodup Hin. unfold cleanup, mbind, M_bind.
  rewrite remove_all_run by done. unfold kill_ping. cbn.
  by rewrite <- !app_assoc.
Qed.

Lemma mapM_get_temp names : ∀ w,
  mapM get_temp names w
  = (Ret names, mkWorld (stats w) (list_to_set names ∪ files w) (ping_alive w) (trace w)).
Proof.
  induction names as [|name names IH]; intros w.
  - cbn. destruct w. cbn. do 2 f_equal. set_solver.
  - cbn [mapM]. unfold mbind, M_bind, get_temp at 1. rewrite IH. cbn.
    do 2 f_equal. set_solver.
Qed.

End Session.

(** main up to its [try] (lines 156-162), when truncate succeeds. *)
Lemma main_setup POST_FILE ARG_FILE PING_FILE url guest rate post_size
    proc_count target k w out :
  truncate_reply k = Got (0, out) →
  main POST_FILE ARG_FILE PING_FILE url guest rate post_size proc_count target k w
  = try_finally
      (main_loop POST_FILE ARG_FILE guest target url rate
         (temp_name k <$> seq 0 (Z.to_nat proc_count)) proc_count 1 (batches k))
      (cleanup POST_FILE ARG_FILE PING_FILE
         (temp_name k <$> seq 0 (Z.to_nat proc_count)))
      (mkWorld (mkStats 0 0 0 (t_last_hang k) (t_start k) 0 0)
         (list_to_set (temp_name k <$> seq 0 (Z.to_nat proc_count))
          ∪ ({[PING_FILE]} ∪ files w))
         true
         (trace w ++ [Info "STARTING STRESS TEST" [];
                      Shell ("truncate -s " +:+ post_size +:+ " " +:+ POST_FILE);
                      PopenShell ("ping -s 56 " +:+ target +:+ " > " +:+ PING_FILE)])).
Proof.
  intros Htrunc. unfold main, info, popen_ping.
  unfold mbind at 1 2 3 4 5, M_bind at 1 2 3 4 5.
  rewrite emit_logged. cbn [set_stats]. rewrite check_output_run, Htrunc.
  cbn [Z.eqb]. rewrite mapM_get_temp. cbn. by rewrite <- !app_assoc.
Qed.

(** C8.  Let the three scratch files of the module be on disk when main
    starts, the paths of all scratch files be distinct and the truncate
    command succeed.  Whatever the outside answers afterwards, and whichever
    call an exception comes from (a poll, the kill, a command or a wait of
    restart_guest, an interrupt in any of them), when main ends with
    that exception none of the scratch files is left, the ping process has
    been killed, and the trace ends with their removal, one by one, and the
    kill. *)
Theorem cleanup_on_termination POST_FILE ARG_FILE PING_FILE url guest rate
    post_size proc_count target k w out e :
  let wget_files := temp_name k <$> seq 0 (Z.to_nat proc_count) in
  let scratch := [POST_FILE; ARG_FILE; PING_FILE] ++ wget_files in
  let run := main POST_FILE ARG_FILE PING_FILE url guest rate post_size
               proc_count target k w in
  NoDup scratch →
  POST_FILE ∈ files w → ARG_FILE ∈ files w → PING_FILE ∈ files w →
  truncate_reply k = Got (0, out) →
  run.1 = Raise e →
  (∀ p, p ∈ scratch → p ∉ files run.2)
  ∧ ping_alive run.2 = false
  ∧ ∃ evs, trace run.2 = evs ++ (Remove <$> scratch) ++ [KillPing].
Proof.
  intros wget_files scratch run Hnodup Hpost Harg Hping Htrunc.
  subst run. rewrite (main_setup _ _ _ _ _ _ _ _ _ _ _ out) by done.
  fold wget_files.
  match goal with |- context [try_finally ?body ?handler ?w1] =>
    set (w2 := w1); set (b := body) end.
  unfold try_finally.
  destruct (appends_main_loop POST_FILE ARG_FILE guest target url rate
              wget_files proc_count (batches k) 1 w2) as (Hfiles & evs & Htrace & _).
  fold b in Hfiles, Htrace.
  assert (Hin : ∀ p, p ∈ scratch → p ∈ files (b w2).2).
  { intros p Hp. apply Hfiles. subst w2 scratch. cbn in Hp |- *.
    set_solver. }
  destruct (b w2) as [[[]|e'|ph] w3]; cbn [fst snd] in *;
    rewrite ?cleanup_run by done; cbn [fst snd]; try done.
  intros _. split; [|split; [done|]].
  - intros p Hp. cbn. set_solver.
  - cbn. eexists. done.
Qed.

(** ** The exit branch and the hang branch *)

(** The three ways out of the exit branch. *)
Lemma stress_exit_run returncode texts post_size proc_count w :
  stress_exit returncode texts post_size proc_count w =
  if (returncode =? 0) && forallb (Py.contains SAVED) (last_line <$> texts) then
    match mapM saved_bytes (last_line <$> texts) with
    | Some counts =>
        (Ret (),
         mkWorld
           (mkStats (s_seq (stats w)) (s_down (stats w) + sum counts)
              (s_up (stats w) + post_size * proc_count) (s_last_hang (stats w))
              (s_start (stats w)) (s_hanged (stats w)) (s_completed (stats w) + 1))
           (files w) (ping_alive w) (trace w))
    | None => (Raise ValueError, w)
    end
  else
    (Raise (SystemExit "this should never happen"),
     logged w [Error "WGET EXIT returncode: %s last_lines: %s"
                 [AInt returncode; ALines (last_line <$> texts)]]).
Proof.
  unfold stress_exit. destruct ((returncode =? 0) && _); [|done].
  unfold get_stats, set_stats, raise, mbind, M_bind.
  by destruct (mapM saved_bytes _).
Qed.

(** A poll that finds xargs exited ends stress through the exit branch, which
    runs no command: a batch seen finished is sent no kill. *)
Lemma finished_batch_is_not_killed guest target url proc_count k
    returncode texts post_size ps last_change last_size :
  stress_loop guest target url proc_count k
    (Got (Exited returncode texts post_size) :: ps) last_change last_size
  = stress_exit returncode texts post_size proc_count
  ∧ appends (λ e, ∀ cmd, e ≠ Shell cmd)
      (stress_exit returncode texts post_size proc_count).
Proof.
  split; [done|]. intros w. rewrite stress_exit_run.
  destruct ((returncode =? 0) && _).
  - destruct (mapM saved_bytes _); (split; [done|]); exists []; cbn;
      by rewrite app_nil_r.
  - split; [done|]. eexists. split; [done|]. by repeat constructor.
Qed.

(** C4 (the code departs from it).  xargs has exited with status zero and
    the last line of the one output file has the text of a saved answer,
    in the form wget gives it when the length of the answer is not known.
    The exit branch does not count the batch as completed: reading the
    byte count fails, ValueError leaves stress and the stats are as they
    were. *)
Theorem exit_saved_without_total_raises w :
  forallb (Py.contains SAVED) (last_line <$> [Sample.saved_line_no_total]) = true
  ∧ saved_bytes (last_line Sample.saved_line_no_total) = None
  ∧ stress_exit 0 [Sample.saved_line_no_total] 104857600 1 w = (Raise ValueError, w).
Proof.
  split; [by vm_compute|]. split; [by vm_compute|].
  rewrite stress_exit_run.
  replace (mapM saved_bytes (last_line <$> [Sample.saved_line_no_total]))
    with (@None (list Z)) by (by vm_compute).
  by replace (forallb (Py.contains SAVED) (last_line <$> [Sample.saved_line_no_total]))
    with true by (by vm_compute).
Qed.

(** The hang branch when the kill command succeeds: the hang is counted and
    dated, the command names the pid of xargs, and restart_guest runs from
    there; stress returns when restart_guest does. *)
Lemma stress_hang_run guest url k now pf w out :
  kill_reply k = Got (0, out) →
  stress_hang guest url k now pf w =
  restart_guest guest url (recovery k)
    (mkWorld
       (mkStats (s_seq (stats w)) (s_down (stats w)) (s_up (stats w)) now
          (s_start (stats w)) (s_hanged (stats w) + 1) (s_completed (stats w)))
       (files w) (ping_alive w)
       (trace w ++ [hang_line (s_seq (stats w)) pf;
                    Info "killing wget processes ..." [];
                    Shell ("kill -9 " +:+ pretty (pid k))])).
Proof.
  intros Hkill. rewrite stress_hang_unfold.
  unfold mbind, M_bind. rewrite check_output_run, Hkill. cbn [Z.eqb].
  unfold logged. cbn. by rewrite <- !app_assoc.
Qed.

(** C7 (the code departs from it).  A batch whose xargs has pid 4242 is
    found hung at its first poll.  The hang counter goes from 0 to 1, the
    time of the poll is kept as the last hang, restart_guest runs to its
    end before stress returns, and the one kill that is issued is
    [kill -9 4242]: it names the pid of xargs alone, no process group and
    no wget worker. *)
Theorem hang_kills_the_dispatcher_only :
  let run := stress Sample.POST_FILE Sample.ARG_FILE Sample.guest Sample.target
               Sample.url None Sample.wget_files 2 Sample.hung_batch idle in
  run.1 = Ret ()
  ∧ s_hanged (stats run.2) = 1
  ∧ s_last_hang (stats run.2) = 21 # 2
  ∧ pid Sample.hung_batch = 4242
  ∧ take 3 (drop 2 (trace run.2))
    = [hang_line 0 (Sample true); Info "killing wget processes ..." [];
       Shell "kill -9 4242"]
  ∧ drop 5 (trace run.2)
    = trace (restart_guest Sample.guest Sample.url Sample.recovery idle).2
  ∧ List.filter (λ e, match e with
                      | Shell cmd => Py.startswith "kill" cmd
                      | _ => false
                      end) (trace run.2)
    = [Shell "kill -9 4242"].
Proof. by vm_compute. Qed.

(** ** The properties at sample runs *)

(** The log has been at 640 bytes for four seconds and its last line is not
    an echo reply: the poll is a hang, and the hang line reports the
    probe, not the stalled log. *)
Lemma stalled_poll_reports_the_probe :
  let lines := [Sample.echo_reply; Sample.unreachable] in
  let run := stress_loop Sample.guest Sample.target Sample.url 2 Sample.hung_batch
               [Got (Running 640 lines 14)] 10 640 idle in
  (TIMEOUT < 14 - 10)%Q
  ∧ run = stress_hang Sample.guest Sample.url Sample.hung_batch 14 (Sample true) idle
  ∧ reported_reason (ping_failed Sample.target lines) ≠ no_progress
  ∧ trace run.2 !! 0%nat
    = Some (Error "#%s NETWORK HANG ping_failed: %s" [AInt 0; AFlag (Sample true)]).
Proof. by vm_compute. Qed.

Lemma stalled_poll_is_hung_witness :
  640 = 640
  ∧ (TIMEOUT < 14 - 10)%Q
  ∧ stress_loop Sample.guest Sample.target Sample.url 2 Sample.hung_batch
      [Got (Running 640 [Sample.echo_reply] 14)] 10 640 idle
    = stress_hang Sample.guest Sample.url Sample.hung_batch 14
        (ping_failed Sample.target [Sample.echo_reply]) idle
  ∧ hung_with (Sample false) 14 idle
      (stress_loop Sample.guest Sample.target Sample.url 2 Sample.hung_batch
         [Got (Running 640 [Sample.echo_reply] 14)] 10 640 idle).2
  ∧ reported_reason (ping_failed Sample.target [Sample.echo_reply]) = no_progress.
Proof.
  assert (Hlate : (TIMEOUT < 14 - 10)%Q) by (by vm_compute).
  destruct (stalled_poll_is_hung Sample.guest Sample.target Sample.url 2
              Sample.hung_batch 640 [Sample.echo_reply] 14 [] 10 640 idle
              eq_refl Hlate)
    as (Hrun & Hhung & Hreason).
  split; [reflexivity|]. split; [exact Hlate|]. split; [exact Hrun|].
  split; [exact Hhung|].
  apply Hreason. vm_compute. discriminate.
Defined.

Lemma failed_probe_is_hung_witness :
  last [Sample.echo_reply; Sample.unreachable] = Some Sample.unreachable
  ∧ Py.startswith ("64 bytes from " +:+ Sample.target) Sample.unreachable = false
  ∧ hung_with (Sample true) (21 # 2) idle
      (stress_loop Sample.guest Sample.target Sample.url 2 Sample.hung_batch
         [Got (Running 960 [Sample.echo_reply; Sample.unreachable] (21 # 2))]
         10 640 idle).2.
Proof.
  split; [reflexivity|]. split; [reflexivity|].
  apply (failed_probe_is_hung Sample.guest Sample.target Sample.url 2
           Sample.hung_batch 960 [Sample.echo_reply; Sample.unreachable]
           Sample.unreachable (21 # 2) [] 10 640 idle); reflexivity.
Defined.

Lemma sample_probe_succeeds : probe_succeeds Sample.target Sample.steady.
Proof.
  intros i r Hi.
  do 5 (destruct i as [|i]; [injection Hi as <-; reflexivity|]).
  discriminate Hi.
Defined.

Lemma sample_clock_monotone : clock_monotone 0 Sample.steady.
Proof.
  split.
  - intros i r Hi.
    do 5 (destruct i as [|i]; [injection Hi as <-; vm_compute; discriminate|]).
    discriminate Hi.
  - intros i j ri rj Hij Hi Hj.
    do 5 (destruct i as [|i];
          [injection Hi as <-;
           do 5 (destruct j as [|j];
                 [injection Hj as <-; first [vm_compute; discriminate | lia]|]);
           discriminate Hj|]).
    discriminate Hi.
Defined.

Lemma sample_progress : progress_every_timeout 0 0 Sample.steady.
Proof.
  intros i r Hi.
  destruct i as [|i]; [injection Hi as <-; left; vm_compute; discriminate|].
  destruct i as [|i]; [injection Hi as <-; left; vm_compute; discriminate|].
  destruct i as [|i].
  { injection Hi as <-. right. exists 2%nat, (200, [Sample.echo_reply], 7 # 2).
    split; [lia|]. split; [|split; [reflexivity|vm_compute; discriminate]].
    exists 100, (200, [Sample.echo_reply], 7 # 2).
    split; [reflexivity|]. split; [reflexivity|]. reflexivity. }
  destruct i as [|i].
  { injection Hi as <-. right. exists 2%nat, (200, [Sample.echo_reply], 7 # 2).
    split; [lia|]. split; [|split; [reflexivity|vm_compute; discriminate]].
    exists 100, (200, [Sample.echo_reply], 7 # 2).
    split; [reflexivity|]. split; [reflexivity|]. reflexivity. }
  destruct i as [|i].
  { injection Hi as <-. right. exists 4%nat, (300, [Sample.echo_reply], 6%Q).
    split; [lia|]. split; [|split; [reflexivity|vm_compute; discriminate]].
    exists 200, (300, [Sample.echo_reply], 6%Q).
    split; [reflexivity|]. split; [reflexivity|]. reflexivity. }
  discriminate Hi.
Defined.

Lemma steady_batch_is_never_hung_witness :
  probe_succeeds Sample.target Sample.steady
  ∧ clock_monotone (t0 Sample.steady_batch) Sample.steady
  ∧ progress_every_timeout (t0 Sample.steady_batch) 0 Sample.steady
  ∧ ∃ w',
      stress Sample.POST_FILE Sample.ARG_FILE Sample.guest Sample.target
        Sample.url None Sample.wget_files 2 Sample.steady_batch Sample.loaded
      = stress_exit 0 [Sample.saved_line; Sample.saved_line] 104857600 2 w'
      ∧ stats w' = stats Sample.loaded.
Proof.
  split; [exact sample_probe_succeeds|].
  split; [exact sample_clock_monotone|].
  split; [exact sample_progress|].
  destruct (steady_batch_is_never_hung Sample.guest Sample.target Sample.url 2
              Sample.steady_batch Sample.POST_FILE Sample.ARG_FILE None
              Sample.wget_files Sample.steady
              [Got (Exited 0 [Sample.saved_line; Sample.saved_line] 104857600)]
              Sample.loaded eq_refl sample_probe_succeeds sample_clock_monotone
              sample_progress)
    as (w' & Hstats & _ & _ & Hexit).
  exists w'. split; [|exact Hstats].
  exact (proj1 (Hexit 0 [Sample.saved_line; Sample.saved_line] 104857600 []
                  eq_refl)).
Defined.

Lemma sample_running :
  Forall2 (λ listing state,
             queryState Sample.guest listing = Ret state ∧ state ≠ "shut off")
    (take 3 (listings Sample.recovery)) ["running"; "running"; "running"].
Proof. repeat constructor; (reflexivity || discriminate). Defined.

Lemma shutdown_once_then_wait_for_off_witness :
  shutdown_reply Sample.recovery = Got (0, "")
  ∧ queryState Sample.guest (Got (0, Sample.listing_off)) = Ret "shut off"
  ∧ (∃ evs,
       trace (restart_guest Sample.guest Sample.url Sample.recovery idle).2
       = trace idle ++ evs
       ∧ length (List.filter (is_shutdown Sample.guest) evs) = 1%nat)
  ∧ restart_guest Sample.guest Sample.url Sample.recovery idle
    = (sleep 1;;
       info "starting guest..." [];;
       check_output ("virsh start " +:+ Sample.guest) (start_reply Sample.recovery);;
       wait_for_webserver Sample.url (probes Sample.recovery))
        (logged idle
           ([Info "shutdown guest..." []; Shell "virsh shutdown myguest"]
            ++ shutdown_retry "running" ++ shutdown_retry "running"
            ++ shutdown_retry "running" ++ [Shell "virsh list --all"])).
Proof.
  destruct (shutdown_once_then_wait_for_off Sample.guest Sample.url
              Sample.recovery idle) as (Honce & Hwait & _).
  split; [reflexivity|]. split; [reflexivity|]. split; [exact Honce|].
  destruct (Hwait "" (take 3 (listings Sample.recovery))
              ["running"; "running"; "running"] [Got (0, Sample.listing_off)]
              eq_refl eq_refl sample_running) as [_ Hoff].
  exact (Hoff (Got (0, Sample.listing_off)) [] eq_refl eq_refl).
Defined.

Lemma service_wait_until_saved_witness :
  Forall (λ a, saved a = false)
    [(4, "Connecting to myguest.local... failed: Connection timed out.")]
  ∧ saved (0, Sample.saved_line) = true
  ∧ wait_for_webserver Sample.url (probes Sample.recovery) idle
    = (Ret (),
       logged idle
         (probe_retry Sample.url
            (4, "Connecting to myguest.local... failed: Connection timed out.")
          ++ [Info "waiting for webserver..." []; Popen (probe_cmd Sample.url)])).
Proof.
  assert (Hbad : Forall (λ a, saved a = false)
            [(4, "Connecting to myguest.local... failed: Connection timed out.")]).
  { repeat constructor. }
  split; [exact Hbad|]. split; [reflexivity|].
  destruct (service_wait_until_saved Sample.url) as (_ & Hretry & _).
  destruct (Hretry _ idle Hbad) as [_ Hready].
  exact (Hready (0, Sample.saved_line) [] eq_refl).
Defined.

Lemma sample_unlisted :
  Forall (λ out,
            Forall (λ row, length row = 3%nat ∧ row !! 1%nat ≠ Some Sample.guest)
              (listing_rows out))
    [Sample.listing_others; Sample.listing_others].
Proof. repeat constructor; discriminate. Defined.

Lemma unlisted_guest_keeps_polling_witness :
  Forall (λ out,
            Forall (λ row, length row = 3%nat ∧ row !! 1%nat ≠ Some Sample.guest)
              (listing_rows out))
    [Sample.listing_others; Sample.listing_others]
  ∧ kvm_state Sample.guest (Got (0, Sample.listing_others)) idle
    = (Ret "COULD NOT DETECT STATE", logged idle [Shell "virsh list --all"])
  ∧ wait_for_shutdown Sample.guest
      [Got (0, Sample.listing_others); Got (0, Sample.listing_others)] idle
    = (Blocked ShuttingDown,
       logged idle (shutdown_retry "COULD NOT DETECT STATE"
                    ++ shutdown_retry "COULD NOT DETECT STATE")).
Proof.
  split; [exact sample_unlisted|].
  destruct (unlisted_guest_keeps_polling Sample.guest
              [Sample.listing_others; Sample.listing_others] idle sample_unlisted)
    as [Hstate Hwait].
  split; [|exact Hwait].
  exact (Forall_inv Hstate idle).
Defined.

Lemma sample_scratch_distinct :
  NoDup ([Sample.POST_FILE; Sample.ARG_FILE; Sample.PING_FILE]
         ++ (temp_name Sample.session <$> seq 0 (Z.to_nat 2))).
Proof. apply (bool_decide_unpack _). vm_compute. exact I. Defined.

Lemma cleanup_on_termination_witness :
  let run := main Sample.POST_FILE Sample.ARG_FILE Sample.PING_FILE Sample.url
               Sample.guest None "100M" 2 Sample.target Sample.session
               Sample.loaded in
  run.1 = Raise KeyboardInterrupt
  ∧ (∀ p, p ∈ [Sample.POST_FILE; Sample.ARG_FILE; Sample.PING_FILE]
              ++ (temp_name Sample.session <$> seq 0 (Z.to_nat 2)) →
          p ∉ files run.2)
  ∧ ping_alive run.2 = false.
Proof.
  intros run.
  assert (Hraise : run.1 = Raise KeyboardInterrupt) by (by vm_compute).
  split; [exact Hraise|].
  destruct (cleanup_on_termination Sample.POST_FILE Sample.ARG_FILE
              Sample.PING_FILE Sample.url Sample.guest None "100M" 2
              Sample.target Sample.session Sample.loaded "" KeyboardInterrupt
              sample_scratch_distinct) as (Hgone & Hkilled & _);
    [apply (bool_decide_unpack _); vm_compute; exact I ..|reflexivity|exact Hraise|].
  split; [exact Hgone|exact Hkilled].
Defined.
